(** * PV Calculator API: a shallow embedding of [main.py]

    The module serves one computation, [POST /calculate], built from two
    helpers: [calculate_psh] (peak sun hours from the latitude and the
    calendar month) and [generate_monthly_energy] (the annual energy split
    over twelve months by hemisphere).

    Numbers.  The specification declares every numeric field a real number,
    and this development follows it: a Python [float] is embedded as a real
    of [R], arithmetic is exact, and [math.sin] and [math.pi] are the sine
    and the constant of the real-number library.  Rounding, overflow to
    infinity and NaN are therefore outside the model.  What is kept from
    Python is everything else: the order of the operations, the exception
    raised by a division by zero, the comparison-based [min] and [max], the
    left-to-right [sum] starting at zero, and [int] truncating towards
    zero.

    Effects.  [datetime.now()] is the only input that is not an argument;
    it is passed explicitly.  Exceptions are threaded through a small error
    monad, and the [try]/[except] of the endpoint turns them into the
    error dictionary. *)

From Stdlib Require Import Reals Lra Lia ZArith List String.
Import ListNotations.

Local Open Scope R_scope.

(** ** Exceptions *)

Module Py.

(** The exceptions the computation can raise; each carries its message, as
    [str(e)] shows it. *)
Inductive exn : Type :=
| ZeroDivisionError (msg : string).

Definition str (e : exn) : string :=
  match e with
  | ZeroDivisionError msg => msg
  end.

(** A computation either raises or returns. *)
Definition result (A : Type) : Type := (exn + A)%type.

Definition ret {A : Type} (a : A) : result A := inr a.

Definition raise {A : Type} (e : exn) : result A := inl e.

Definition bind {A B : Type} (m : result A) (k : A -> result B) : result B :=
  match m with
  | inl e => inl e
  | inr a => k a
  end.

(** A list comprehension whose body may raise: elements are evaluated from
    left to right and the first exception ends the loop. *)
Fixpoint comprehension {A B : Type} (f : A -> result B) (l : list A)
  : result (list B) :=
  match l with
  | [] => ret []
  | a :: l' =>
      bind (f a) (fun b =>
      bind (comprehension f l') (fun bs =>
      ret (b :: bs)))
  end.

(** ** Built-in operations on floats *)

(** [x / y] on floats raises on a zero divisor. *)
Definition truediv (x y : R) : result R :=
  if Req_dec_T y 0
  then raise (ZeroDivisionError "float division by zero")
  else ret (x / y).

(** [min(a, b)]: the second argument replaces the first only when it is
    strictly smaller. *)
Definition min (a b : R) : R := if Rlt_dec b a then b else a.

(** [max(a, b)]: the second argument replaces the first only when it is
    strictly greater. *)
Definition max (a b : R) : R := if Rgt_dec b a then b else a.

(** [sum(l)]: accumulates from [0], left to right. *)
Definition sum (l : list R) : R := fold_left Rplus l 0.

(** [int(x)]: truncation towards zero. *)
Definition int (x : R) : Z :=
  if Rle_dec 0 x then Int_part x else (- Int_part (- x))%Z.

End Py.

Declare Scope py_scope.
Delimit Scope py_scope with py.
Notation "x <- m ;; k" := (Py.bind m (fun x => k))
  (at level 61, m at next level, right associativity) : py_scope.
Local Open Scope py_scope.

(** ** Data model *)

(** The part of [datetime.now()] the program can observe. *)
Record datetime : Type := mkDatetime {
  year : Z;
  month : Z;
  day : Z
}.

Record PVRequest : Type := mkPVRequest {
  latitude : R;
  longitude : R;
  system_capacity : R;
  panel_efficiency : R;
  system_losses : R
}.

(** The defaults of the two optional fields. *)
Definition default_panel_efficiency : R := 0.18.
Definition default_system_losses : R := 0.14.

Record PVResponse : Type := mkPVResponse {
  annual_energy : R;
  monthly_energy : list R;
  capacity_factor : R;
  psh_annual : R;
  roi_period : R;
  panel_count : Z;
  required_area : R;
  system_cost : R;
  annual_savings : R
}.

(** What the endpoint hands back: the response record, or the dictionary
    [{"error": ...}] whose only entry is a message. *)
Inductive Payload : Type :=
| Metrics (response : PVResponse)
| ErrorDict (error : string).

(** ** [calculate_psh] *)

Definition calculate_psh (now : datetime) (lat lon : R) : Py.result R :=
  let base_psh := 4.5 in
  let lat_effect := Rabs lat * 0.02 in
  let current_month := month now in
  angle <- Py.truediv (2 * PI * IZR (current_month - 6)) 12 ;;
  let seasonal_factor := 1 + 0.1 * sin angle in
  let psh := base_psh - lat_effect in
  let psh := psh * seasonal_factor in
  Py.ret (Py.max 2.0 (Py.min 6.0 psh)).

(** ** [generate_monthly_energy] *)

Definition northern_pattern : list R :=
  [0.06; 0.07; 0.08; 0.09; 0.10; 0.12;
   0.12; 0.11; 0.10; 0.09; 0.08; 0.07].

Definition southern_pattern : list R :=
  [0.12; 0.11; 0.10; 0.09; 0.08; 0.07;
   0.07; 0.08; 0.09; 0.10; 0.11; 0.12].

Definition generate_monthly_energy (annual_energy lat : R)
  : Py.result (list R) :=
  let base_pattern :=
    if Rge_dec lat 0 then northern_pattern else southern_pattern in
  let total := Py.sum base_pattern in
  normalized_pattern <-
    Py.comprehension (fun factor => Py.truediv factor total) base_pattern ;;
  let monthly_energy :=
    map (fun factor => annual_energy * factor) normalized_pattern in
  Py.ret monthly_energy.

(** ** [calculate_pv] *)

(** The body of the [try] block. *)
Definition calculate_pv_body (now : datetime) (request : PVRequest)
  : Py.result PVResponse :=
  psh_annual <- calculate_psh now (latitude request) (longitude request) ;;
  let annual_energy :=
    system_capacity request * psh_annual * 365
    * (1 - system_losses request) in
  ratio <- Py.truediv annual_energy (system_capacity request * 8760) ;;
  let capacity_factor := ratio * 100 in
  monthly_energy <- generate_monthly_energy annual_energy (latitude request) ;;
  let system_cost := system_capacity request * 18000000 in
  let annual_savings := annual_energy * 1500 in
  roi_period <-
    (if Rgt_dec annual_savings 0
     then Py.truediv system_cost annual_savings
     else Py.ret 0) ;;
  watts <- Py.truediv (system_capacity request * 1000) 450 ;;
  let panel_count := Py.int watts in
  let required_area := system_capacity request * 7 in
  Py.ret (mkPVResponse annual_energy monthly_energy capacity_factor
            psh_annual roi_period panel_count required_area
            system_cost annual_savings).

(** The endpoint: the body under its catch-all handler. *)
Definition calculate_pv (now : datetime) (request : PVRequest) : Payload :=
  match calculate_pv_body now request with
  | inr response => Metrics response
  | inl e => ErrorDict (Py.str e)
  end.

(** ** The application *)






(** ** Vocabulary of the specification *)

(** Clamping to a closed interval, as the specification words it. *)
Definition clamp (lo hi x : R) : R := Rmax lo (Rmin hi x).

(** The peak-sun-hours formula of the specification for month number [m]. *)
Definition psh_formula (m : Z) (lat : R) : R :=
  (4.5 - Rabs lat * 0.02) * (1 + 0.1 * sin (2 * PI * IZR (m - 6) / 12)).

(** The weight table of a hemisphere. *)
Definition pattern_of (lat : R) : list R :=
  if Rge_dec lat 0 then northern_pattern else southern_pattern.

(** Index [i] holds a largest entry of [l]. *)
Definition is_peak (l : list R) (i : nat) : Prop :=
  (i < List.length l)%nat /\
  forall j, (j < List.length l)%nat -> nth j l 0 <= nth i l 0.

(** The value line 56 binds to [roi_period] when its division is defined:
    the guarded quotient. *)
Definition roi_of (cost savings : R) : R :=
  if Rgt_dec savings 0 then cost / savings else 0.

(** The return-on-investment rule in the wording "zero exactly when the
    savings are zero, the quotient otherwise". *)
Definition roi_zero_iff_no_savings (response : PVResponse) : Prop :=
  (roi_period response = 0 <-> annual_savings response = 0) /\
  (annual_savings response <> 0 ->
   roi_period response
   = system_cost response / annual_savings response).



(** Index [i] holds a smallest entry of [l]. *)
Definition is_trough (l : list R) (i : nat) : Prop :=
  (i < List.length l)%nat /\
  forall j, (j < List.length l)%nat -> nth i l 0 <= nth j l 0.


(** A request for one tenth of a kilowatt, less than a single panel. *)
Definition balcony : PVRequest :=
  mkPVRequest 52.5 13.4 0.1 default_panel_efficiency default_system_losses.

(** Sample inputs: the Jakarta-like request of the specification, served in
    November, and a request whose losses exceed the whole output. *)
Definition november : datetime := mkDatetime 2026 11 4.
Definition june : datetime := mkDatetime 2026 6 15.

Definition jakarta : PVRequest :=
  mkPVRequest (-6.2) 106.8 5.0 default_panel_efficiency 0.14.

Definition jakarta_elsewhere : PVRequest :=
  mkPVRequest (-6.2) 0 5.0 0.22 0.14.

Definition overloaded : PVRequest :=
  mkPVRequest 0 0 5.0 default_panel_efficiency 1.5.


(** * Properties *)

(** ** Built-ins *)

Lemma truediv_nonzero (x y : R) :
  y <> 0 -> Py.truediv x y = Py.ret (x / y).
Proof.
  intros Hy. unfold Py.truediv.
  destruct (Req_dec_T y 0) as [E | _]; [contradiction | reflexivity].
Qed.


Lemma min_is_Rmin (a b : R) : Py.min a b = Rmin a b.
Proof.
  unfold Py.min, Rmin.
  destruct (Rlt_dec b a), (Rle_dec a b); try reflexivity; lra.
Qed.

Lemma max_is_Rmax (a b : R) : Py.max a b = Rmax a b.
Proof.
  unfold Py.max, Rmax.
  destruct (Rgt_dec b a), (Rle_dec a b); try reflexivity; lra.
Qed.

Lemma clamp_bounds (lo hi x : R) :
  lo <= hi -> lo <= clamp lo hi x <= hi.
Proof.
  intros Hlh. unfold clamp. split.
  - apply Rmax_l.
  - apply Rmax_lub; [exact Hlh | apply Rmin_l].
Qed.


Lemma comprehension_total {A B : Type} (f : A -> Py.result B) (g : A -> B)
      (l : list A) :
  (forall a, In a l -> f a = Py.ret (g a)) ->
  Py.comprehension f l = Py.ret (map g l).
Proof.
  induction l as [| a l IH]; intros Hf; simpl.
  - reflexivity.
  - rewrite (Hf a (or_introl eq_refl)). simpl.
    rewrite IH by (intros b Hb; apply Hf; now right).
    reflexivity.
Qed.

Lemma sum_from (l : list R) (acc : R) :
  fold_left Rplus l acc = acc + Py.sum l.
Proof.
  unfold Py.sum. revert acc.
  induction l as [| x l IH]; intros acc; simpl.
  - lra.
  - rewrite (IH (acc + x)), (IH (0 + x)). lra.
Qed.

Lemma sum_cons (x : R) (l : list R) : Py.sum (x :: l) = x + Py.sum l.
Proof. unfold Py.sum at 1. simpl. rewrite sum_from. lra. Qed.

Lemma sum_scaled (c : R) (l : list R) :
  Py.sum (map (fun w => c * w) l) = c * Py.sum l.
Proof.
  induction l as [| x l IH]; simpl.
  - unfold Py.sum. simpl. lra.
  - rewrite !sum_cons, IH. lra.
Qed.

Lemma sum_divided (t : R) (l : list R) :
  t <> 0 -> Py.sum (map (fun w => w / t) l) = Py.sum l / t.
Proof.
  intros Ht. induction l as [| x l IH]; simpl.
  - unfold Py.sum. simpl. field. exact Ht.
  - rewrite !sum_cons, IH. field. exact Ht.
Qed.

(** ** The helpers never raise *)

Lemma calculate_psh_returns (now : datetime) (lat lon : R) :
  calculate_psh now lat lon
  = Py.ret (Py.max 2.0 (Py.min 6.0
              ((4.5 - Rabs lat * 0.02)
               * (1 + 0.1 * sin (2 * PI * IZR (month now - 6) / 12))))).
Proof.
  unfold calculate_psh.
  rewrite truediv_nonzero by lra.
  reflexivity.
Qed.

Lemma calculate_psh_range (now : datetime) (lat lon : R) :
  exists psh, calculate_psh now lat lon = Py.ret psh /\ 2 <= psh <= 6.
Proof.
  eexists. split; [apply calculate_psh_returns |].
  rewrite max_is_Rmax, min_is_Rmin.
  replace 2.0 with 2 by lra. replace 6.0 with 6 by lra.
  apply (clamp_bounds 2 6). lra.
Qed.

Lemma northern_total : Py.sum northern_pattern = 1.09.
Proof. unfold Py.sum, northern_pattern. simpl. lra. Qed.

Lemma southern_total : Py.sum southern_pattern = 1.14.
Proof. unfold Py.sum, southern_pattern. simpl. lra. Qed.

Lemma pattern_total_nonzero (lat : R) : Py.sum (pattern_of lat) <> 0.
Proof.
  unfold pattern_of. destruct (Rge_dec lat 0).
  - rewrite northern_total. lra.
  - rewrite southern_total. lra.
Qed.

Lemma pattern_length (lat : R) : List.length (pattern_of lat) = 12%nat.
Proof. unfold pattern_of. destruct (Rge_dec lat 0); reflexivity. Qed.

Lemma generate_monthly_energy_returns (annual lat : R) :
  generate_monthly_energy annual lat
  = Py.ret (map (fun w => annual * (w / Py.sum (pattern_of lat)))
              (pattern_of lat)).
Proof.
  unfold generate_monthly_energy. fold (pattern_of lat).
  rewrite (comprehension_total _ (fun w => w / Py.sum (pattern_of lat))).
  - simpl. rewrite map_map. reflexivity.
  - intros w _. apply truediv_nonzero, pattern_total_nonzero.
Qed.

(** ** The body of the endpoint *)

(** With a non-zero capacity every division of the body is defined, and the
    response is the record below. *)
Lemma calculate_pv_body_returns (now : datetime) (request : PVRequest) :
  system_capacity request <> 0 ->
  exists psh monthly,
    calculate_psh now (latitude request) (longitude request) = Py.ret psh /\
    2 <= psh <= 6 /\
    generate_monthly_energy
      (system_capacity request * psh * 365 * (1 - system_losses request))
      (latitude request) = Py.ret monthly /\
    calculate_pv_body now request
    = Py.ret
        (let annual :=
           system_capacity request * psh * 365
           * (1 - system_losses request) in
         mkPVResponse annual monthly
           (annual / (system_capacity request * 8760) * 100)
           psh
           (roi_of (system_capacity request * 18000000) (annual * 1500))
           (Py.int (system_capacity request * 1000 / 450))
           (system_capacity request * 7)
           (system_capacity request * 18000000)
           (annual * 1500)).
Proof.
  intros Hcap.
  destruct (calculate_psh_range now (latitude request) (longitude request))
    as [psh [Hpsh Hrange]].
  exists psh. eexists.
  split; [exact Hpsh |]. split; [exact Hrange |].
  split; [apply generate_monthly_energy_returns |].
  unfold calculate_pv_body. rewrite Hpsh. simpl.
  rewrite truediv_nonzero by lra. simpl.
  rewrite generate_monthly_energy_returns. simpl.
  unfold roi_of.
  destruct (Rgt_dec _ 0) as [Hpos | Hnonpos].
  - rewrite truediv_nonzero by lra. simpl.
    rewrite truediv_nonzero by lra. reflexivity.
  - simpl. rewrite truediv_nonzero by lra. reflexivity.
Qed.


Lemma calculate_pv_returns (now : datetime) (request : PVRequest) :
  system_capacity request <> 0 ->
  exists psh,
    calculate_psh now (latitude request) (longitude request) = Py.ret psh /\
    2 <= psh <= 6 /\
    calculate_pv now request
    = Metrics
        (let annual :=
           system_capacity request * psh * 365
           * (1 - system_losses request) in
         mkPVResponse annual
           (map (fun w => annual * (w / Py.sum (pattern_of (latitude request))))
              (pattern_of (latitude request)))
           (annual / (system_capacity request * 8760) * 100)
           psh
           (roi_of (system_capacity request * 18000000) (annual * 1500))
           (Py.int (system_capacity request * 1000 / 450))
           (system_capacity request * 7)
           (system_capacity request * 18000000)
           (annual * 1500)).
Proof.
  intros Hcap.
  destruct (calculate_pv_body_returns now request Hcap)
    as [psh [monthly [Hpsh [Hrange [Hmonthly Hbody]]]]].
  exists psh. split; [exact Hpsh |]. split; [exact Hrange |].
  rewrite generate_monthly_energy_returns in Hmonthly.
  injection Hmonthly as <-.
  unfold calculate_pv. rewrite Hbody. reflexivity.
Qed.

(** ** The endpoint: energy and capacity factor *)

(** C1.  Whenever the capacity is not zero (a zero capacity makes line 48
    raise, see [calculate_pv_body_raises]) the endpoint returns a response
    whose [psh_annual] is the value the PSH estimator produced for that
    call, whose [annual_energy] is
    [system_capacity * psh_annual * 365 * (1 - system_losses)] and whose
    [capacity_factor] is [annual_energy / (system_capacity * 8760) * 100]. *)
Theorem calculate_pv_energy (now : datetime) (request : PVRequest) :
  system_capacity request <> 0 ->
  exists response,
    calculate_pv now request = Metrics response /\
    calculate_psh now (latitude request) (longitude request)
    = Py.ret (psh_annual response) /\
    annual_energy response
    = system_capacity request * psh_annual response * 365
      * (1 - system_losses request) /\
    capacity_factor response
    = annual_energy response / (system_capacity request * 8760) * 100.
Proof.
  intros Hcap.
  destruct (calculate_pv_returns now request Hcap)
    as [psh [Hpsh [_ Hpv]]].
  eexists. split; [exact Hpv |]. simpl.
  split; [exact Hpsh |]. split; reflexivity.
Qed.

Lemma calculate_pv_energy_jakarta :
  exists response,
    calculate_pv november jakarta = Metrics response /\
    calculate_psh november (-6.2) 106.8 = Py.ret (psh_annual response) /\
    annual_energy response = 5.0 * psh_annual response * 365 * (1 - 0.14) /\
    capacity_factor response = annual_energy response / (5.0 * 8760) * 100.
Proof.
  apply (calculate_pv_energy november jakarta). simpl. lra.
Defined.

(** ** The PSH estimator *)

(** C2.  The PSH estimator always returns, and what it returns is the value
    [(4.5 - |latitude| * 0.02) * (1 + 0.1 * sin (2 * pi * (m - 6) / 12))],
    with [m] the month of the clock at the call, clamped to [[2, 6]]. *)
Theorem calculate_psh_formula (now : datetime) (lat lon : R) :
  calculate_psh now lat lon
  = Py.ret (clamp 2.0 6.0 (psh_formula (month now) lat)).
Proof.
  rewrite calculate_psh_returns.
  unfold clamp, psh_formula.
  rewrite max_is_Rmax, min_is_Rmin. reflexivity.
Qed.

(** C6.  For a latitude between -90 and 90 degrees and a calendar month
    between 1 and 12, the PSH estimator returns a value between 2.0 and
    6.0. *)
Theorem calculate_psh_bounded (now : datetime) (lat lon : R) :
  -90 <= lat <= 90 ->
  (1 <= month now <= 12)%Z ->
  exists psh,
    calculate_psh now lat lon = Py.ret psh /\ 2.0 <= psh <= 6.0.
Proof.
  intros _ _.
  destruct (calculate_psh_range now lat lon) as [psh [Hpsh Hrange]].
  exists psh. split; [exact Hpsh | lra].
Qed.

Lemma calculate_psh_bounded_jakarta :
  exists psh,
    calculate_psh november (-6.2) 106.8 = Py.ret psh /\ 2.0 <= psh <= 6.0.
Proof.
  apply (calculate_psh_bounded november (-6.2) 106.8).
  - lra.
  - simpl. lia.
Defined.

(** In June the seasonal factor is 1, so at the equator the estimator
    returns the base value. *)
Example calculate_psh_june_equator :
  calculate_psh june 0 0 = Py.ret 4.5.
Proof.
  rewrite calculate_psh_returns. simpl.
  replace (2 * PI * 0 / 12) with 0 by lra.
  rewrite sin_0, Rabs_R0, max_is_Rmax, min_is_Rmin.
  replace ((4.5 - 0 * 0.02) * (1 + 0.1 * 0)) with 4.5 by lra.
  rewrite Rmin_right by lra. rewrite Rmax_right by lra. reflexivity.
Qed.

(** ** The monthly distribution *)

Lemma normalized_total (lat : R) :
  Py.sum (map (fun w => w / Py.sum (pattern_of lat)) (pattern_of lat)) = 1.
Proof.
  rewrite sum_divided by apply pattern_total_nonzero.
  field. apply pattern_total_nonzero.
Qed.

Lemma monthly_total (annual lat : R) :
  Py.sum (map (fun w => annual * (w / Py.sum (pattern_of lat)))
            (pattern_of lat)) = annual.
Proof.
  rewrite <- (map_map (fun w => w / Py.sum (pattern_of lat))
                      (fun w => annual * w)).
  rewrite sum_scaled, normalized_total. lra.
Qed.

Lemma monthly_entry (annual lat : R) (i : nat) :
  (i < 12)%nat ->
  nth i (map (fun w => annual * (w / Py.sum (pattern_of lat)))
           (pattern_of lat)) 0
  = annual * (nth i (pattern_of lat) 0 / Py.sum (pattern_of lat)).
Proof.
  intros Hi.
  rewrite (nth_indep _ 0 (annual * (0 / Py.sum (pattern_of lat))))
    by (rewrite length_map, pattern_length; exact Hi).
  apply (map_nth (fun w => annual * (w / Py.sum (pattern_of lat)))).
Qed.

(** C3.  For a non-negative annual energy and any latitude the generator
    returns twelve values, the entry of each calendar month being the
    annual energy times that month's weight divided by the table's total;
    the normalized weights sum to 1, so the twelve values sum to the annual
    energy exactly, hence within a relative tolerance of 1e-6. *)
Theorem generate_monthly_energy_sums (annual lat : R) :
  0 <= annual ->
  exists monthly,
    generate_monthly_energy annual lat = Py.ret monthly /\
    List.length monthly = 12%nat /\
    (forall i, (i < 12)%nat ->
       nth i monthly 0
       = annual * (nth i (pattern_of lat) 0 / Py.sum (pattern_of lat))) /\
    Py.sum (map (fun w => w / Py.sum (pattern_of lat)) (pattern_of lat)) = 1 /\
    Py.sum monthly = annual /\
    Rabs (Py.sum monthly - annual) <= 1e-6 * annual.
Proof.
  intros Hannual.
  eexists. split; [apply generate_monthly_energy_returns |].
  split; [now rewrite length_map, pattern_length |].
  split; [intros i Hi; now apply monthly_entry |].
  split; [apply normalized_total |].
  split; [apply monthly_total |].
  rewrite monthly_total.
  replace (annual - annual) with 0 by lra.
  rewrite Rabs_R0. lra.
Qed.

Lemma generate_monthly_energy_sums_jakarta :
  exists monthly,
    generate_monthly_energy 6000 (-6.2) = Py.ret monthly /\
    List.length monthly = 12%nat /\
    (forall i, (i < 12)%nat ->
       nth i monthly 0
       = 6000 * (nth i (pattern_of (-6.2)) 0 / Py.sum (pattern_of (-6.2)))) /\
    Py.sum (map (fun w => w / Py.sum (pattern_of (-6.2)))
              (pattern_of (-6.2))) = 1 /\
    Py.sum monthly = 6000 /\
    Rabs (Py.sum monthly - 6000) <= 1e-6 * 6000.
Proof.
  apply (generate_monthly_energy_sums 6000 (-6.2)). lra.
Defined.

(** Case analysis over the twelve positions of a month table. *)
Ltac split_index i n :=
  lazymatch n with
  | O => idtac
  | S ?m => destruct i as [| i]; [ | split_index i m ]
  end.

Ltac each_month i :=
  split_index i 12%nat; [ .. | exfalso; simpl in *; lia ].

Lemma northern_peaks (annual lat : R) (i : nat) :
  annual > 0 -> lat >= 0 ->
  is_peak (map (fun w => annual * (w / Py.sum (pattern_of lat)))
             (pattern_of lat)) i
  <-> i = 5%nat \/ i = 6%nat.
Proof.
  intros Hannual Hlat. unfold pattern_of.
  destruct (Rge_dec lat 0) as [_ | N]; [| contradiction].
  rewrite northern_total. unfold northern_pattern, is_peak.
  cbn [map List.length]. split.
  - intros [Hi Hmax].
    pose proof (Hmax 5%nat ltac:(lia)) as H5. cbn [nth] in H5.
    each_month i; cbn [nth] in H5; auto; exfalso; lra.
  - intros [-> | ->]; (split; [lia |]); intros j Hj;
      each_month j; cbn [nth]; lra.
Qed.

Lemma southern_peaks (annual lat : R) (i : nat) :
  annual > 0 -> lat < 0 ->
  is_peak (map (fun w => annual * (w / Py.sum (pattern_of lat)))
             (pattern_of lat)) i
  <-> i = 11%nat \/ i = 0%nat.
Proof.
  intros Hannual Hlat. unfold pattern_of.
  destruct (Rge_dec lat 0) as [P | _]; [lra |].
  rewrite southern_total. unfold southern_pattern, is_peak.
  cbn [map List.length]. split.
  - intros [Hi Hmax].
    pose proof (Hmax 0%nat ltac:(lia)) as H0. cbn [nth] in H0.
    each_month i; cbn [nth] in H0; auto; exfalso; lra.
  - intros [-> | ->]; (split; [lia |]); intros j Hj;
      each_month j; cbn [nth]; lra.
Qed.

(** C5.  For a positive annual energy the generator returns a sequence
    whose largest entry sits at index 5 or 6 (June or July) when the
    latitude is non-negative, and at index 11 or 0 (December or January)
    when it is negative: those positions hold a largest entry and no other
    position does. *)
Theorem generate_monthly_energy_peak (annual lat : R) :
  annual > 0 ->
  exists monthly,
    generate_monthly_energy annual lat = Py.ret monthly /\
    (lat >= 0 ->
     forall i, is_peak monthly i <-> i = 5%nat \/ i = 6%nat) /\
    (lat < 0 ->
     forall i, is_peak monthly i <-> i = 11%nat \/ i = 0%nat).
Proof.
  intros Hannual.
  eexists. split; [apply generate_monthly_energy_returns |].
  split; intros Hlat i.
  - now apply northern_peaks.
  - now apply southern_peaks.
Qed.

Lemma generate_monthly_energy_peak_jakarta :
  exists monthly,
    generate_monthly_energy 6000 (-6.2) = Py.ret monthly /\
    (-6.2 >= 0 ->
     forall i, is_peak monthly i <-> i = 5%nat \/ i = 6%nat) /\
    (-6.2 < 0 ->
     forall i, is_peak monthly i <-> i = 11%nat \/ i = 0%nat).
Proof.
  apply (generate_monthly_energy_peak 6000 (-6.2)). lra.
Defined.

(** ** Sizing *)



(** ** Return on investment *)

(** The claim as worded fails where the savings are negative: with losses
    of 1.5 the energy and the savings are below zero, the guard of line 56
    takes its [else] branch, and the period is 0 although the savings are
    not. *)
Lemma roi_zero_with_negative_savings :
  exists response,
    calculate_pv june overloaded = Metrics response /\
    annual_savings response < 0 /\
    roi_period response = 0 /\
    ~ roi_zero_iff_no_savings response.
Proof.
  destruct (calculate_pv_returns june overloaded) as [psh [_ [Hrange Hpv]]];
    [simpl; lra |].
  eexists. split; [exact Hpv |].
  cbn [annual_savings roi_period system_cost overloaded system_capacity
       system_losses].
  assert (Hneg : 5.0 * psh * 365 * (1 - 1.5) * 1500 < 0) by nra.
  assert (Hroi : roi_of (5.0 * 18000000)
                   (5.0 * psh * 365 * (1 - 1.5) * 1500) = 0).
  { unfold roi_of. destruct (Rgt_dec _ 0); [lra | reflexivity]. }
  split; [exact Hneg |]. split; [exact Hroi |].
  unfold roi_zero_iff_no_savings.
  cbn [annual_savings roi_period system_cost].
  intros [[Hzero _] _]. specialize (Hzero Hroi). lra.
Qed.

(** C4, amended.  Whenever the endpoint computes a response (the capacity
    is not zero), [roi_period] is 0 exactly when [annual_savings] is zero
    or negative, and is [system_cost / annual_savings] when the savings are
    positive; savings that are not positive are handled by the guard, the
    response is still the metrics record and no error is raised. *)
Theorem calculate_pv_roi (now : datetime) (request : PVRequest) :
  system_capacity request <> 0 ->
  exists response,
    calculate_pv now request = Metrics response /\
    (roi_period response = 0 <-> annual_savings response <= 0) /\
    (annual_savings response > 0 ->
     roi_period response
     = system_cost response / annual_savings response).
Proof.
  intros Hcap.
  destruct (calculate_pv_returns now request Hcap) as [psh [_ [_ Hpv]]].
  eexists. split; [exact Hpv |].
  cbn [roi_period annual_savings system_cost]. unfold roi_of.
  destruct (Rgt_dec _ 0) as [Hpos | Hnonpos].
  - split; [| reflexivity]. split; [| lra].
    intros Hzero. exfalso.
    apply Rmult_integral in Hzero. destruct Hzero as [Hcost | Hinv].
    + lra.
    + revert Hinv. apply Rinv_neq_0_compat. lra.
  - split; [split; [lra | reflexivity] | lra].
Qed.

Lemma calculate_pv_roi_jakarta :
  exists response,
    calculate_pv november jakarta = Metrics response /\
    (roi_period response = 0 <-> annual_savings response <= 0) /\
    (annual_savings response > 0 ->
     roi_period response
     = system_cost response / annual_savings response).
Proof.
  apply (calculate_pv_roi november jakarta). simpl. lra.
Defined.

(** The guard at work on zero savings: losses of exactly 1 leave no energy,
    and the response carries a period of 0. *)
Example calculate_pv_roi_no_savings :
  exists response,
    calculate_pv november (mkPVRequest (-6.2) 106.8 5.0 0.18 1)
    = Metrics response /\
    annual_savings response = 0 /\ roi_period response = 0.
Proof.
  destruct (calculate_pv_returns november
              (mkPVRequest (-6.2) 106.8 5.0 0.18 1))
    as [psh [_ [_ Hpv]]]; [simpl; lra |].
  eexists. split; [exact Hpv |].
  cbn [annual_savings roi_period system_capacity system_losses].
  unfold roi_of. destruct (Rgt_dec _ 0); split; lra.
Qed.



(** ** Inputs without influence *)

Lemma calculate_psh_ignores_longitude (now : datetime) (lat lon lon' : R) :
  calculate_psh now lat lon = calculate_psh now lat lon'.
Proof. reflexivity. Qed.

(** C9.  Two requests with the same latitude, capacity and losses, served
    in the same month, receive the same payload, whatever their longitudes
    and panel efficiencies. *)
Theorem calculate_pv_unused_inputs (now now' : datetime)
        (request request' : PVRequest) :
  month now = month now' ->
  latitude request = latitude request' ->
  system_capacity request = system_capacity request' ->
  system_losses request = system_losses request' ->
  calculate_pv now request = calculate_pv now' request'.
Proof.
  intros Hmonth Hlat Hcap Hlosses.
  unfold calculate_pv, calculate_pv_body, calculate_psh.
  rewrite Hmonth, Hlat, Hcap, Hlosses. reflexivity.
Qed.

Lemma calculate_pv_unused_inputs_jakarta :
  calculate_pv november jakarta
  = calculate_pv (mkDatetime 2027 11 30) jakarta_elsewhere.
Proof.
  apply (calculate_pv_unused_inputs november (mkDatetime 2027 11 30)
           jakarta jakarta_elsewhere); reflexivity.
Defined.

(** ** Failures *)




(** * Further properties of the code *)

(** ** Where the endpoint fails *)



(** ** The PSH estimator on real latitudes *)

Lemma seasonal_factor_range (x : R) : 0.9 <= 1 + 0.1 * sin x <= 1.1.
Proof. destruct (SIN_bound x). lra. Qed.

Lemma clamp_idle (x : R) :
  2 <= x <= 6 -> Py.max 2.0 (Py.min 6.0 x) = x.
Proof.
  intros Hx. unfold Py.max, Py.min.
  destruct (Rlt_dec x 6.0), (Rgt_dec _ 2.0); lra.
Qed.

Lemma clamp_monotone (x y : R) :
  x <= y -> Py.max 2.0 (Py.min 6.0 x) <= Py.max 2.0 (Py.min 6.0 y).
Proof.
  intros Hxy. unfold Py.max, Py.min.
  destruct (Rlt_dec x 6.0), (Rlt_dec y 6.0);
    repeat match goal with
           | |- context [Rgt_dec ?a ?b] => destruct (Rgt_dec a b)
           end; lra.
Qed.

(** X2.  For a latitude between -90 and 90 degrees the clamp of line 93
    never acts: the estimator returns the unclamped product of the latitude
    term and the seasonal factor, and that value lies between 2.43 and
    4.95. *)
Theorem calculate_psh_unclamped (now : datetime) (lat lon : R) :
  -90 <= lat <= 90 ->
  calculate_psh now lat lon = Py.ret (psh_formula (month now) lat) /\
  2.43 <= psh_formula (month now) lat <= 4.95.
Proof.
  intros Hlat.
  assert (Habs : 0 <= Rabs lat <= 90).
  { split; [apply Rabs_pos | apply Rabs_le; lra]. }
  pose proof (seasonal_factor_range (2 * PI * IZR (month now - 6) / 12))
    as Hseason.
  assert (Hrange : 2.43 <= psh_formula (month now) lat <= 4.95).
  { unfold psh_formula. split; nra. }
  split; [| exact Hrange].
  rewrite calculate_psh_returns. fold (psh_formula (month now) lat).
  rewrite clamp_idle by lra. reflexivity.
Qed.

Lemma calculate_psh_unclamped_jakarta :
  calculate_psh november (-6.2) 106.8
  = Py.ret (psh_formula (month november) (-6.2)) /\
  2.43 <= psh_formula (month november) (-6.2) <= 4.95.
Proof.
  apply (calculate_psh_unclamped november (-6.2) 106.8). lra.
Defined.

(** X3.  In any one month the estimate does not grow with the distance from
    the equator: a latitude of larger absolute value gets a value that is
    at most that of a latitude of smaller absolute value (so opposite
    latitudes get the same value). *)
Theorem calculate_psh_latitude_monotone (now : datetime)
        (lat lat' lon lon' : R) :
  Rabs lat <= Rabs lat' ->
  exists psh psh',
    calculate_psh now lat lon = Py.ret psh /\
    calculate_psh now lat' lon' = Py.ret psh' /\
    psh' <= psh.
Proof.
  intros Habs.
  do 2 eexists.
  split; [apply calculate_psh_returns |].
  split; [apply calculate_psh_returns |].
  apply clamp_monotone.
  pose proof (seasonal_factor_range (2 * PI * IZR (month now - 6) / 12)).
  nra.
Qed.

Lemma calculate_psh_latitude_monotone_sample :
  exists psh psh',
    calculate_psh november (-6.2) 106.8 = Py.ret psh /\
    calculate_psh november 52.5 13.4 = Py.ret psh' /\
    psh' <= psh.
Proof.
  apply (calculate_psh_latitude_monotone november (-6.2) 52.5 106.8 13.4).
  rewrite (Rabs_left (-6.2)) by lra. rewrite (Rabs_right 52.5) by lra. lra.
Defined.

Lemma psh_formula_september (lat : R) :
  psh_formula 9 lat = (4.5 - Rabs lat * 0.02) * 1.1.
Proof.
  unfold psh_formula.
  replace (2 * PI * IZR (9 - 6) / 12) with (PI / 2) by (simpl; lra).
  rewrite sin_PI2. lra.
Qed.

Lemma psh_formula_march (lat : R) :
  psh_formula 3 lat = (4.5 - Rabs lat * 0.02) * 0.9.
Proof.
  unfold psh_formula.
  replace (2 * PI * IZR (3 - 6) / 12) with (- (PI / 2)) by (simpl; lra).
  rewrite sin_neg, sin_PI2. lra.
Qed.

(** X4.  The seasonal factor of line 87 does not look at the hemisphere:
    for every latitude between -90 and 90 degrees the estimate is smallest
    in March, where it is 0.9 times the latitude term, and largest in
    September, where it is 1.1 times the latitude term; every other month
    lies in between. *)
Theorem calculate_psh_seasons (now march september : datetime)
        (lat lon : R) :
  -90 <= lat <= 90 ->
  month march = 3%Z ->
  month september = 9%Z ->
  exists psh low high,
    calculate_psh now lat lon = Py.ret psh /\
    calculate_psh march lat lon = Py.ret low /\
    calculate_psh september lat lon = Py.ret high /\
    low = (4.5 - Rabs lat * 0.02) * 0.9 /\
    high = (4.5 - Rabs lat * 0.02) * 1.1 /\
    low <= psh <= high.
Proof.
  intros Hlat Hmarch Hseptember.
  destruct (calculate_psh_unclamped now lat lon Hlat) as [Hnow _].
  destruct (calculate_psh_unclamped march lat lon Hlat) as [Hlow _].
  destruct (calculate_psh_unclamped september lat lon Hlat) as [Hhigh _].
  rewrite Hmarch in Hlow. rewrite Hseptember in Hhigh.
  do 3 eexists.
  split; [exact Hnow |]. split; [exact Hlow |]. split; [exact Hhigh |].
  split; [apply psh_formula_march |].
  split; [apply psh_formula_september |].
  rewrite psh_formula_march, psh_formula_september.
  assert (Habs : 0 <= Rabs lat <= 90).
  { split; [apply Rabs_pos | apply Rabs_le; lra]. }
  pose proof (seasonal_factor_range (2 * PI * IZR (month now - 6) / 12)).
  unfold psh_formula. split; nra.
Qed.

Lemma calculate_psh_seasons_jakarta :
  exists psh low high,
    calculate_psh november (-6.2) 106.8 = Py.ret psh /\
    calculate_psh (mkDatetime 2026 3 21) (-6.2) 106.8 = Py.ret low /\
    calculate_psh (mkDatetime 2026 9 23) (-6.2) 106.8 = Py.ret high /\
    low = (4.5 - Rabs (-6.2) * 0.02) * 0.9 /\
    high = (4.5 - Rabs (-6.2) * 0.02) * 1.1 /\
    low <= psh <= high.
Proof.
  apply (calculate_psh_seasons november (mkDatetime 2026 3 21)
           (mkDatetime 2026 9 23) (-6.2) 106.8);
    [lra | reflexivity | reflexivity].
Defined.

(** ** What does not depend on the size of the system *)





(** ** The monthly values of a response *)







Lemma northern_troughs (annual lat : R) (i : nat) :
  annual > 0 -> lat >= 0 ->
  is_trough (map (fun w => annual * (w / Py.sum (pattern_of lat)))
               (pattern_of lat)) i
  <-> i = 0%nat.
Proof.
  intros Hannual Hlat. unfold pattern_of.
  destruct (Rge_dec lat 0) as [_ | N]; [| contradiction].
  rewrite northern_total. unfold northern_pattern, is_trough.
  cbn [map List.length]. split.
  - intros [Hi Hmin].
    pose proof (Hmin 0%nat ltac:(lia)) as H0. cbn [nth] in H0.
    each_month i; cbn [nth] in H0; auto; exfalso; lra.
  - intros ->. split; [lia |]. intros j Hj.
    each_month j; cbn [nth]; lra.
Qed.

Lemma southern_troughs (annual lat : R) (i : nat) :
  annual > 0 -> lat < 0 ->
  is_trough (map (fun w => annual * (w / Py.sum (pattern_of lat)))
               (pattern_of lat)) i
  <-> i = 5%nat \/ i = 6%nat.
Proof.
  intros Hannual Hlat. unfold pattern_of.
  destruct (Rge_dec lat 0) as [P | _]; [lra |].
  rewrite southern_total. unfold southern_pattern, is_trough.
  cbn [map List.length]. split.
  - intros [Hi Hmin].
    pose proof (Hmin 5%nat ltac:(lia)) as H5. cbn [nth] in H5.
    each_month i; cbn [nth] in H5; auto; exfalso; lra.
  - intros [-> | ->]; (split; [lia |]); intros j Hj;
      each_month j; cbn [nth]; lra.
Qed.

(** X9.  For a positive annual energy the smallest monthly value of the
    northern table is January's alone (index 0; December ties with
    February one step above it), while the smallest value of the southern
    table is shared by June and July (indices 5 and 6). *)
Theorem generate_monthly_energy_trough (annual lat : R) :
  annual > 0 ->
  exists monthly,
    generate_monthly_energy annual lat = Py.ret monthly /\
    (lat >= 0 -> forall i, is_trough monthly i <-> i = 0%nat) /\
    (lat < 0 -> forall i, is_trough monthly i <-> i = 5%nat \/ i = 6%nat) /\
    (lat >= 0 -> nth 11 monthly 0 = nth 1 monthly 0).
Proof.
  intros Hannual.
  eexists. split; [apply generate_monthly_energy_returns |].
  split; [intros Hlat i; now apply northern_troughs |].
  split; [intros Hlat i; now apply southern_troughs |].
  intros Hlat. unfold pattern_of.
  destruct (Rge_dec lat 0) as [_ | N]; [| contradiction].
  reflexivity.
Qed.

Lemma generate_monthly_energy_trough_sample :
  exists monthly,
    generate_monthly_energy 6000 52.5 = Py.ret monthly /\
    (52.5 >= 0 -> forall i, is_trough monthly i <-> i = 0%nat) /\
    (52.5 < 0 -> forall i, is_trough monthly i <-> i = 5%nat \/ i = 6%nat) /\
    (52.5 >= 0 -> nth 11 monthly 0 = nth 1 monthly 0).
Proof.
  apply (generate_monthly_energy_trough 6000 52.5). lra.
Defined.

(** ** Scaling the system *)




(** ** Systems smaller than one panel *)

(** X11.  [int] truncates towards zero, so every non-zero capacity of less
    than 0.45 kW in absolute value, negative ones included, is sized at zero
    panels, while the area and the cost reported with it are not zero. *)
Theorem calculate_pv_no_panel (now : datetime) (request : PVRequest) :
  system_capacity request <> 0 ->
  -0.45 < system_capacity request < 0.45 ->
  exists response,
    calculate_pv now request = Metrics response /\
    panel_count response = 0%Z /\
    required_area response <> 0 /\
    system_cost response <> 0.
Proof.
  intros Hcap Hsmall.
  destruct (calculate_pv_returns now request Hcap) as [psh [_ [_ Hpv]]].
  eexists. split; [exact Hpv |].
  cbn [panel_count required_area system_cost].
  set (cap := system_capacity request) in *.
  split; [| split; lra].
  unfold Py.int. destruct (Rle_dec 0 (cap * 1000 / 450)) as [Hpos | Hneg].
  - symmetry. apply Int_part_spec. simpl. lra.
  - assert (Hzero : 0%Z = Int_part (- (cap * 1000 / 450)))
      by (apply Int_part_spec; simpl; lra).
    rewrite <- Hzero. reflexivity.
Qed.

Lemma calculate_pv_no_panel_balcony :
  exists response,
    calculate_pv november balcony = Metrics response /\
    panel_count response = 0%Z /\
    required_area response <> 0 /\
    system_cost response <> 0.
Proof.
  apply (calculate_pv_no_panel november balcony); simpl; lra.
Defined.

(** ** The two hemispheres *)

(** X12.  Two requests at opposite latitudes, otherwise alike and served in
    the same month, get the same peak sun hours, energy, capacity factor,
    payback period, panel count, area, cost and savings: the hemisphere
    shows in [monthly_energy] only. *)
Theorem calculate_pv_opposite_latitude (now : datetime)
        (request request' : PVRequest) :
  system_capacity request <> 0 ->
  latitude request' = - latitude request ->
  system_capacity request' = system_capacity request ->
  system_losses request' = system_losses request ->
  exists response response',
    calculate_pv now request = Metrics response /\
    calculate_pv now request' = Metrics response' /\
    psh_annual response' = psh_annual response /\
    annual_energy response' = annual_energy response /\
    capacity_factor response' = capacity_factor response /\
    roi_period response' = roi_period response /\
    panel_count response' = panel_count response /\
    required_area response' = required_area response /\
    system_cost response' = system_cost response /\
    annual_savings response' = annual_savings response.
Proof.
  intros Hcap Hlat Hcap' Hlosses.
  destruct (calculate_pv_returns now request Hcap) as [psh [Hpsh [_ Hpv]]].
  destruct (calculate_pv_returns now request') as [psh' [Hpsh' [_ Hpv']]];
    [rewrite Hcap'; exact Hcap |].
  assert (Hsame : psh' = psh).
  { rewrite calculate_psh_returns in Hpsh, Hpsh'.
    rewrite Hlat, Rabs_Ropp in Hpsh'.
    rewrite Hpsh in Hpsh'. now injection Hpsh'. }
  subst psh'. rewrite Hcap', Hlosses in Hpv'.
  do 2 eexists.
  split; [exact Hpv |]. split; [exact Hpv' |].
  cbn [annual_energy system_cost annual_savings required_area
       psh_annual capacity_factor roi_period panel_count].
  repeat split; reflexivity.
Qed.

Lemma calculate_pv_opposite_latitude_jakarta :
  exists response response',
    calculate_pv november jakarta = Metrics response /\
    calculate_pv november (mkPVRequest 6.2 106.8 5.0 0.18 0.14)
    = Metrics response' /\
    psh_annual response' = psh_annual response /\
    annual_energy response' = annual_energy response /\
    capacity_factor response' = capacity_factor response /\
    roi_period response' = roi_period response /\
    panel_count response' = panel_count response /\
    required_area response' = required_area response /\
    system_cost response' = system_cost response /\
    annual_savings response' = annual_savings response.
Proof.
  apply (calculate_pv_opposite_latitude november jakarta
           (mkPVRequest 6.2 106.8 5.0 0.18 0.14));
    simpl; lra.
Defined.
